(** * Tii-server: the transcription service, embedded and verified

    A shallow embedding of [backend/transcriber.py] (the transcription
    worker) and [backend/main.py] (the request validator and the
    [/transcribe] endpoint), and the properties of the service's
    request-handling contract: input validation, error classification and
    the life cycle of temporary files.

    Python code that touches the file system, prints or calls the speech
    model and the media extractor is written in a state-and-exception
    monad over a [world]; the behaviour of the third-party collaborators
    (Whisper, yt-dlp, the disk) is supplied by a record of oracles. *)

From Stdlib Require Import Ascii DecimalString.
From stdpp Require Import base option list strings gmap fin_maps.

(** ** Python strings *)

Module PyStr.

(** [s.startswith(p)] *)
Fixpoint startswith (p s : string) : bool :=
  match p, s with
  | EmptyString, _ => true
  | String a p', String b s' => if decide (a = b) then startswith p' s' else false
  | String _ _, EmptyString => false
  end.

(** [needle in hay] on [str]: some suffix of [hay] starts with [needle]. *)
Fixpoint contains (needle hay : string) : bool :=
  startswith needle hay ||
  match hay with
  | EmptyString => false
  | String _ hay' => contains needle hay'
  end.

(** [s.endswith(p)]: [p] is a suffix of [s]. *)
Fixpoint endswith (p s : string) : bool :=
  bool_decide (s = p) ||
  match s with
  | EmptyString => false
  | String _ s' => endswith p s'
  end.

(** [s.replace(old, new)] for a non-empty [old], scanning left to right;
    [skip] counts the characters of a match still to be dropped. *)
Fixpoint replace_go (old new : string) (skip : nat) (s : string) : string :=
  match s with
  | EmptyString => EmptyString
  | String c s' =>
      match skip with
      | S k => replace_go old new k s'
      | O =>
          if startswith old s
          then new +:+ replace_go old new (String.length old - 1) s'
          else String c (replace_go old new 0 s')
      end
  end.

Definition replace (old new s : string) : string := replace_go old new 0 s.

(** Every character of [s] satisfies [P]. *)
Fixpoint all_chars (P : Ascii.ascii → bool) (s : string) : bool :=
  match s with
  | EmptyString => true
  | String c s' => P c && all_chars P s'
  end.

(** Truthiness of a [str]: only the empty string is falsy. *)
Definition truthy (s : string) : bool :=
  match s with
  | EmptyString => false
  | String _ _ => true
  end.

(** Decimal rendering of a natural number. *)
Definition of_nat (n : nat) : string :=
  NilEmpty.string_of_uint (Nat.to_uint n).

End PyStr.

(** ** Values, exceptions, uploads *)

(** The JSON-like values that cross the service boundary. *)
#[warnings="-register-all"]
Inductive value :=
| VNone
| VBool (b : bool)
| VInt (z : Z)
| VStr (s : string)
| VList (l : list value).

(** A raised Python exception, kept as its class name and [str(e)]. *)
Record exn := Exn { exn_class : string; exn_str : string }.

Definition FileNotFoundError (msg : string) : exn := Exn "FileNotFoundError" msg.
Definition KeyError (key : string) : exn := Exn "KeyError" ("'" +:+ key +:+ "'").
Definition AttributeError (msg : string) : exn := Exn "AttributeError" msg.
Definition IsADirectoryError (msg : string) : exn := Exn "IsADirectoryError" msg.

(** [fastapi.HTTPException(status_code, detail)] *)
Record HTTPException := HTTPError { status_code : nat; detail : string }.

Definition HTTP_200_OK : nat := 200.
Definition HTTP_400_BAD_REQUEST : nat := 400.
Definition HTTP_422_UNPROCESSABLE_ENTITY : nat := 422.
Definition HTTP_500_INTERNAL_SERVER_ERROR : nat := 500.

(** [fastapi.UploadFile]: the client's file name and what [file.file.read()]
    gives, the uploaded bytes or an exception of the underlying stream. *)
Record UploadFile := Upload {
  filename : string;
  file_read : exn + list Byte.byte
}.

(** What the form parser hands over for [audio_file], declared
    [Union[UploadFile, str]] with default [None]. *)
Inductive form_file :=
| FieldAbsent
| FieldStr (s : string)
| FieldUpload (u : UploadFile).

(** ** The world: file system, collaborator calls, standard output *)

Inductive node :=
| Dir
| File (data : list Byte.byte).

(** One post-processor entry of the extractor's options. *)
Record Postprocessor := {
  key : string;
  preferredcodec : string;
  preferredquality : string
}.

(** The options dictionary given to [yt_dlp.YoutubeDL]. *)
Record YdlOpts := {
  format : string;
  postprocessors : list Postprocessor;
  outtmpl : string;
  quiet : bool
}.

(** Invocations of the third-party collaborators, in order. *)
Inductive call :=
| CallTranscribe (file_path : string) (fp16 : bool)
| CallDownload (opts : YdlOpts) (urls : list string).

Record world := World {
  fs : gmap string node;
  tmp_seq : nat;
  calls : list call;
  stdout : list string
}.

Definition set_fs (f : gmap string node → gmap string node) (w : world) : world :=
  World (f (fs w)) (tmp_seq w) (calls w) (stdout w).

Definition next_tmp (w : world) : world :=
  World (fs w) (S (tmp_seq w)) (calls w) (stdout w).

Definition record_call (c : call) (w : world) : world :=
  World (fs w) (tmp_seq w) (calls w ++ [c]) (stdout w).

(** The third-party collaborators and the disk, as oracles. *)
Record Collaborators := {
  (** [model.transcribe(file_path, fp16=...)]: the result dictionary, or
      the exception it raises. *)
  whisper_transcribe : string → bool → exn + gmap string value;
  (** [ydl.download(urls)] under the given options: the files it leaves on
      disk, and the exception it raises if any. *)
  ydl_download : YdlOpts → list string → list (string * list Byte.byte) * option exn;
  (** [temp_file.write(data)]: the exception it raises if any (disk full,
      I/O error). *)
  disk_write : string → list Byte.byte → option exn
}.

(** ** The state-and-exception monad *)

Definition M (A : Type) : Type := world → (exn + A) * world.

Global Instance M_ret : MRet M := λ A x w, (inr x, w).

Global Instance M_bind : MBind M := λ A B f m w,
  match m w with
  | (inl e, w') => (inl e, w')
  | (inr x, w') => f x w'
  end.

Definition raise {A} (e : exn) : M A := λ w, (inl e, w).

(** [try: body finally: final] *)
Definition try_finally {A} (body : M A) (final : M unit) : M A := λ w,
  let '(r, w1) := body w in
  match final w1 with
  | (inl e, w2) => (inl e, w2)
  | (inr _, w2) => (r, w2)
  end.

(** [print(s)] *)
Definition print (s : string) : M unit := λ w,
  (inr (), World (fs w) (tmp_seq w) (calls w) (stdout w ++ [s])).

(** ** [os] and [tempfile] *)

(** [os.path.join(a, b)] on POSIX. *)
Definition os_path_join (a b : string) : string :=
  if PyStr.startswith "/" b then b
  else if negb (PyStr.truthy a) || PyStr.endswith "/" a
       then a +:+ b
       else a +:+ "/" +:+ b.

(** [os.path.exists(path)] *)
Definition os_path_exists (path : string) : M bool := λ w,
  (inr (bool_decide (is_Some (fs w !! path))), w).

(** [os.unlink(path)] *)
Definition os_unlink (path : string) : M unit := λ w,
  match fs w !! path with
  | Some (File _) => (inr (), set_fs (delete path) w)
  | Some Dir => (inl (IsADirectoryError path), w)
  | None => (inl (FileNotFoundError path), w)
  end.

(** [path] is the directory [d] or lies below it. *)
Definition in_tree (d path : string) : bool :=
  bool_decide (path = d) || PyStr.startswith (d +:+ "/") path.

(** [shutil.rmtree(d)], as [TemporaryDirectory.cleanup] runs it. *)
Definition rmtree (d : string) (m : gmap string node) : gmap string node :=
  filter (λ kv : string * node, ¬ in_tree d kv.1) m.

(** The name [tempfile] picks next: its prefix, a fresh tail, the suffix. *)
Definition tmp_name (suffix : string) (w : world) : string :=
  "/tmp/tmp" +:+ PyStr.of_nat (tmp_seq w) +:+ suffix.

(** [with tempfile.TemporaryDirectory() as temp_dir: body]: the directory
    is created, and removed with all it holds when the block is left,
    whether by falling through or by an exception. *)
Definition with_TemporaryDirectory {A} (body : string → M A) : M A := λ w,
  let temp_dir := tmp_name "" w in
  let '(r, w1) := body temp_dir (set_fs (insert temp_dir Dir) (next_tmp w)) in
  (r, set_fs (rmtree temp_dir) w1).

(** [with tempfile.NamedTemporaryFile(delete=False, suffix=...) as temp_file:
    body]: the file is created empty; leaving the block closes it and,
    [delete] being [False], leaves it on disk. The handle is modelled by
    its [name]. *)
Definition with_NamedTemporaryFile_nodelete {A} (suffix : string) (body : string → M A) : M A := λ w,
  let name := tmp_name suffix w in
  body name (set_fs (insert name (File [])) (next_tmp w)).

Section Transcriber.

Context (ext : Collaborators).

(** [temp_file.write(data)] *)
Definition file_write (name : string) (data : list Byte.byte) : M unit := λ w,
  match disk_write ext name data with
  | Some e => (inl e, w)
  | None =>
      let old := match fs w !! name with Some (File d) => d | _ => [] end in
      (inr (), set_fs (insert name (File (old ++ data))) w)
  end.

(** [model.transcribe(file_path, fp16=fp16)] *)
Definition model_transcribe (file_path : string) (fp16 : bool) : M (gmap string value) := λ w,
  (whisper_transcribe ext file_path fp16, record_call (CallTranscribe file_path fp16) w).

(** [with yt_dlp.YoutubeDL(ydl_opts) as ydl: ydl.download(urls)] *)
Definition YoutubeDL_download (ydl_opts : YdlOpts) (urls : list string) : M unit := λ w,
  let '(files, err) := ydl_download ext ydl_opts urls in
  let w' := set_fs (λ m, foldl (λ m f, <[f.1 := File f.2]> m) m files)
                   (record_call (CallDownload ydl_opts urls) w) in
  match err with
  | Some e => (inl e, w')
  | None => (inr (), w')
  end.

(** [result[k]] on a dictionary. *)
Definition getitem (d : gmap string value) (k : string) : M value :=
  match d !! k with
  | Some v => mret v
  | None => raise (KeyError k)
  end.

(** *** backend/transcriber.py *)

Definition transcribe_audio (file_path : string) : M value :=
  print ("Transcribing file: " +:+ file_path);;
  result ← model_transcribe file_path false;
  print "Transcription complete.";;
  getitem result "text".

(** The [ydl_opts] dictionary that [process_youtube_url] builds for its
    temporary directory. *)
Definition ydl_opts (temp_dir : string) : YdlOpts := {|
  format := "bestaudio/best";
  postprocessors := [ {|
    key := "FFmpegExtractAudio";
    preferredcodec := "mp3";
    preferredquality := "192"
  |} ];
  outtmpl := os_path_join temp_dir "audio.%(ext)s";
  quiet := false
|}.

Definition process_youtube_url (url : string) : M value :=
  with_TemporaryDirectory (λ temp_dir,
    let ydl_opts := ydl_opts temp_dir in
    print ("Downloading audio from URL: " +:+ url);;
    YoutubeDL_download ydl_opts [url];;
    let audio_path := os_path_join temp_dir "audio.mp3" in
    found ← os_path_exists audio_path;
    if negb found then
      raise (FileNotFoundError "Failed to download audio from the URL.")
    else
      transcribe_audio audio_path).

Definition process_audio_file (file : form_file) : M value :=
  temp_file_path ← with_NamedTemporaryFile_nodelete ".tmp" (λ temp_file,
    data ← match file with
           | FieldUpload u =>
               match file_read u with
               | inr bytes => mret bytes
               | inl e => raise e
               end
           | FieldAbsent => raise (AttributeError "'NoneType' object has no attribute 'file'")
           | FieldStr _ => raise (AttributeError "'str' object has no attribute 'file'")
           end;
    file_write temp_file data;;
    mret temp_file);
  try_finally
    (transcribe_audio temp_file_path)
    (os_unlink temp_file_path).

End Transcriber.

(** *** backend/main.py *)

(** The dictionary [{"youtube_url": ..., "audio_file": ...}] that the
    validator returns and the endpoint reads back with [inputs.get]. *)
Record Inputs := {
  youtube_url : option string;
  audio_file : form_file
}.

(** [isinstance(audio_file, str)] *)
Definition isinstance_str (audio_file : form_file) : bool :=
  match audio_file with
  | FieldStr _ => true
  | _ => false
  end.

(** [bool(youtube_url)] for an [Optional[str]]. *)
Definition bool_url (youtube_url : option string) : bool :=
  match youtube_url with
  | Some s => PyStr.truthy s
  | None => false
  end.

(** [bool(audio_file)]: [None] is falsy, a [str] is truthy unless empty,
    and an [UploadFile], which defines neither [__bool__] nor [__len__],
    is always truthy. *)
Definition bool_file (audio_file : form_file) : bool :=
  match audio_file with
  | FieldAbsent => false
  | FieldStr s => PyStr.truthy s
  | FieldUpload _ => true
  end.

Definition validate_and_process_inputs
    (youtube_url : option string) (audio_file : form_file) : HTTPException + Inputs :=
  let audio_file := if isinstance_str audio_file then FieldAbsent else audio_file in
  let has_url := bool_url youtube_url in
  let has_file := bool_file audio_file in
  if negb has_url && negb has_file then
    inl (HTTPError HTTP_422_UNPROCESSABLE_ENTITY
           "You must provide either a 'youtube_url' or an 'audio_file'.")
  else if has_url && has_file then
    inl (HTTPError HTTP_422_UNPROCESSABLE_ENTITY
           "Please provide either a 'youtube_url' or an 'audio_file', not both.")
  else
    inr {| youtube_url := youtube_url; audio_file := audio_file |}.

(** An HTTP response: status and JSON body. *)
Record Response := {
  status : nat;
  content : gmap string value
}.

Section Service.

Context (ext : Collaborators).

(** The body of the endpoint's [try]: the worker call chosen by
    [if youtube_url]. *)
Definition dispatch (inputs : Inputs) : M value :=
  match youtube_url inputs with
  | Some url =>
      if PyStr.truthy url then process_youtube_url ext url
      else process_audio_file ext (audio_file inputs)
  | None => process_audio_file ext (audio_file inputs)
  end.

Definition transcribe_endpoint (inputs : Inputs)
    : world → (HTTPException + gmap string value) * world := λ w,
  match dispatch inputs w with
  | (inr transcript, w') => (inr {[ "transcript" := transcript ]}, w')
  | (inl e, w') =>
      let error_message := exn_str e in
      if PyStr.contains "HTTP Error 403" error_message
         || PyStr.contains "unable to download" error_message
      then
        (inl (HTTPError HTTP_400_BAD_REQUEST
                "Failed to download audio from the provided YouTube URL. The video may be private or protected."), w')
      else
        (inl (HTTPError HTTP_500_INTERNAL_SERVER_ERROR
                ("An unexpected error occurred during transcription: " +:+ error_message)), w')
  end.

(** FastAPI turns a raised [HTTPException] into a response with its
    status code and the body [{"detail": detail}]. *)
Definition error_response (e : HTTPException) : Response :=
  {| status := status_code e; content := {[ "detail" := VStr (detail e) ]} |}.

(** [POST /transcribe]: the dependency runs first; only if it returns
    does the endpoint body run. *)
Definition post_transcribe (youtube_url : option string) (audio_file : form_file)
    : world → Response * world := λ w,
  match validate_and_process_inputs youtube_url audio_file with
  | inl e => (error_response e, w)
  | inr inputs =>
      match transcribe_endpoint inputs w with
      | (inl e, w') => (error_response e, w')
      | (inr body, w') => ({| status := HTTP_200_OK; content := body |}, w')
      end
  end.

(** [GET /] *)
Definition read_root : Response :=
  {| status := HTTP_200_OK; content := {[ "status" := VStr "API is running" ]} |}.

End Service.

(** The file name yt-dlp derives from an output template for a file of
    extension [e]: the field [%(ext)s] replaced by [e]. *)
Definition render_outtmpl (tmpl e : string) : string :=
  PyStr.replace "%(ext)s" e tmpl.

(** ** Vocabulary of the properties *)

(** The two rejections of the validator. *)
Definition missing_input : HTTPException :=
  HTTPError 422 "You must provide either a 'youtube_url' or an 'audio_file'.".

Definition conflicting_inputs : HTTPException :=
  HTTPError 422 "Please provide either a 'youtube_url' or an 'audio_file', not both.".

(** [needle] occurs somewhere inside [hay]. *)
Definition occurs_in (needle hay : string) : Prop :=
  ∃ a b, hay = a +:+ needle +:+ b.

Definition source_unavailable : HTTPException :=
  HTTPError 400
    "Failed to download audio from the provided YouTube URL. The video may be private or protected.".

Definition unexpected_error (error_message : string) : HTTPException :=
  HTTPError 500 ("An unexpected error occurred during transcription: " +:+ error_message).

(** The message carries one of the two download-failure indicators. *)
Definition download_indicator (error_message : string) : Prop :=
  occurs_in "HTTP Error 403" error_message ∨ occurs_in "unable to download" error_message.

(** No character of [s] is [x]. *)
Definition free_of (x : Ascii.ascii) (s : string) : bool :=
  PyStr.all_chars (λ c, negb (bool_decide (c = x))) s.

(** The URL worker up to the end of the extraction step: the temporary
    directory exists, the progress line is printed, the extractor has
    run. *)
Definition extraction (ext : Collaborators) (url : string) (w : world) : (exn + ()) * world :=
  (print ("Downloading audio from URL: " +:+ url);;
   YoutubeDL_download ext (ydl_opts (tmp_name "" w)) [url])
    (set_fs (insert (tmp_name "" w) Dir) (next_tmp w)).

(** The world in which the upload is read and written: the temporary
    file has just been created, empty. *)
Definition temp_file_created (w : world) : world :=
  set_fs (insert (tmp_name ".tmp" w) (File [])) (next_tmp w).

(** A collaborator call that does not use the half-precision path. *)
Definition fp16_off (c : call) : Prop :=
  match c with
  | CallTranscribe _ fp16 => fp16 = false
  | CallDownload _ _ => True
  end.

(** [audio_file] holds an uploaded file. *)
Definition is_upload (audio_file : form_file) : bool :=
  match audio_file with
  | FieldUpload _ => true
  | _ => false
  end.

(** The files the extractor leaves behind, written over a file system. *)
Definition write_files (files : list (string * list Byte.byte)) (m : gmap string node)
    : gmap string node :=
  foldl (λ m f, <[f.1 := File f.2]> m) m files.

(** What inference makes of the model's answer: the ["text"] entry, the
    model's exception, or a [KeyError] if the entry is missing. *)
Definition inference_outcome (answer : exn + gmap string value) : exn + value :=
  match answer with
  | inl e => inl e
  | inr result =>
      match result !! "text" with
      | Some text => inr text
      | None => inl (KeyError "text")
      end
  end.

(** ** Concrete collaborators and requests *)

Module Scenario.

(** The world once the module has been imported and the model loaded. *)
Definition boot : world :=
  World ∅ 0 [] ["Loading Whisper model..."; "Whisper model loaded."].

Definition hello : gmap string value :=
  {[ "text" := VStr " Hello world."; "language" := VStr "en"; "segments" := VList [] ]}.

Definition mp3_bytes : list Byte.byte := [Byte.x49; Byte.x44; Byte.x33].

(** Everything works: the extractor leaves the transcoded file where the
    template says, the model recognises the speech, the disk has room. *)
Definition studio : Collaborators := {|
  whisper_transcribe := λ _ _, inr hello;
  ydl_download := λ opts _, ([(render_outtmpl (outtmpl opts) "mp3", mp3_bytes)], None);
  disk_write := λ _ _, None
|}.

(** The extractor returns normally but has produced nothing. *)
Definition silent_extractor : Collaborators := {|
  whisper_transcribe := λ _ _, inr hello;
  ydl_download := λ _ _, ([], None);
  disk_write := λ _ _, None
|}.

(** The extractor is refused by the video site. *)
Definition forbidden : Collaborators := {|
  whisper_transcribe := λ _ _, inr hello;
  ydl_download := λ _ _,
    ([], Some (Exn "DownloadError"
                 "ERROR: unable to download video data: HTTP Error 403: Forbidden"));
  disk_write := λ _ _, None
|}.

(** The partition holding the temporary files is full. *)
Definition disk_full : Collaborators := {|
  whisper_transcribe := λ _ _, inr hello;
  ydl_download := λ _ _, ([], None);
  disk_write := λ _ _, Some (Exn "OSError" "[Errno 28] No space left on device")
|}.

(** The model cannot decode the upload; the decoder's diagnostics, which
    echo the file's metadata, end up in the exception message. *)
Definition undecodable : Collaborators := {|
  whisper_transcribe := λ _ _,
    inl (Exn "RuntimeError"
           "Failed to load audio: Metadata: title: unable to download; Output file does not contain any stream");
  ydl_download := λ _ _, ([], None);
  disk_write := λ _ _, None
|}.

(** The model fails for a reason of its own. *)
Definition out_of_memory : Collaborators := {|
  whisper_transcribe := λ _ _, inl (Exn "RuntimeError" "out of memory");
  ydl_download := λ _ _, ([], None);
  disk_write := λ _ _, None
|}.

Definition clip : UploadFile := Upload "clip.mp3" (inr mp3_bytes).

(** The model answers with a dictionary that has no ["text"] entry. *)
Definition textless : Collaborators := {|
  whisper_transcribe := λ _ _, inr {[ "language" := VStr "en" ]};
  ydl_download := λ _ _, ([], None);
  disk_write := λ _ _, None
|}.

Definition video : string := "https://youtu.be/dQw4w9WgXcQ".

End Scenario.

(** * Properties *)

(** ** Strings *)

Section StringFacts.

Implicit Types (s t p : string) (c : Ascii.ascii).

Lemma app_cons c s t : String c s +:+ t = String c (s +:+ t).
Proof. reflexivity. Qed.

Lemma app_empty_r s : s +:+ "" = s.
Proof. induction s as [|c s IH]; [done|]. by rewrite app_cons, IH. Qed.

Lemma app_assoc' s t p : (s +:+ t) +:+ p = s +:+ t +:+ p.
Proof. induction s as [|c s IH]; [done|]. by rewrite !app_cons, IH. Qed.

(** [startswith] decides "is a prefix of". *)
Lemma startswith_spec p s :
  PyStr.startswith p s = true ↔ ∃ t, s = p +:+ t.
Proof.
  revert s. induction p as [|a p IH]; intros s; simpl.
  - split; [intros _; by exists s | done].
  - destruct s as [|b s].
    + split; [done | intros [t Ht]; rewrite app_cons in Ht; discriminate].
    + case_decide as Hab.
      * subst b. rewrite IH. split; intros [t Ht]; exists t.
        -- by rewrite app_cons, Ht.
        -- rewrite app_cons in Ht. congruence.
      * split; [done | intros [t Ht]; rewrite app_cons in Ht; congruence].
Qed.

(** [contains] decides Python's [needle in hay]: the needle occurs
    somewhere inside the haystack. *)
Lemma contains_spec p s :
  PyStr.contains p s = true ↔ ∃ a b, s = a +:+ p +:+ b.
Proof.
  induction s as [|c s IH]; simpl.
  - rewrite orb_false_r, startswith_spec. split.
    + intros [t Ht]. by exists "", t.
    + intros [[|a0 a] [b Hb]]; [by exists b | rewrite app_cons in Hb; discriminate].
  - rewrite orb_true_iff, startswith_spec, IH. split.
    + intros [[t Ht] | (a & b & Hab)].
      * by exists "", t.
      * exists (String c a), b. by rewrite app_cons, Hab.
    + intros ([|a0 a] & b & Hab).
      * left. by exists b.
      * right. rewrite app_cons in Hab. exists a, b. congruence.
Qed.

(** A message appended to a fixed text can be found in the result. *)
Lemma contains_app_r p s : PyStr.contains s (p +:+ s) = true.
Proof. apply contains_spec. exists p, "". by rewrite app_empty_r. Qed.

End StringFacts.

(** ** The request validator *)

Section Validation.

Context (ext : Collaborators).

(** A request the validator rejects gets the exception's status and
    leaves the world as it found it: nothing was downloaded, written or
    transcribed. *)
Lemma post_transcribe_rejected youtube_url audio_file e w :
  validate_and_process_inputs youtube_url audio_file = inl e →
  post_transcribe ext youtube_url audio_file w = (error_response e, w).
Proof. intros H. unfold post_transcribe. by rewrite H. Qed.

(** A request the validator accepts is answered by the endpoint body. *)
Lemma post_transcribe_accepted youtube_url audio_file inputs w :
  validate_and_process_inputs youtube_url audio_file = inr inputs →
  post_transcribe ext youtube_url audio_file w =
    match transcribe_endpoint ext inputs w with
    | (inl e, w') => (error_response e, w')
    | (inr body, w') => ({| status := 200; content := body |}, w')
    end.
Proof. intros H. unfold post_transcribe. by rewrite H. Qed.

(** Whatever string arrives in the file field, empty or not, the
    validator proceeds as if the field had not been sent. *)
Lemma validate_str_field youtube_url s :
  validate_and_process_inputs youtube_url (FieldStr s) =
  validate_and_process_inputs youtube_url FieldAbsent.
Proof. reflexivity. Qed.

(** The endpoint's answer depends on the inputs only through the worker
    call they select. *)
Lemma transcribe_endpoint_dispatch i1 i2 w :
  dispatch ext i1 = dispatch ext i2 →
  transcribe_endpoint ext i1 w = transcribe_endpoint ext i2 w.
Proof. intros H. unfold transcribe_endpoint. by rewrite H. Qed.

(** Without a truthy URL and without an upload the first check fires. *)
Lemma validate_missing youtube_url audio_file :
  bool_url youtube_url = false →
  (∀ u, audio_file ≠ FieldUpload u) →
  validate_and_process_inputs youtube_url audio_file = inl missing_input.
Proof.
  intros Hurl Hfile. unfold validate_and_process_inputs. rewrite Hurl.
  destruct audio_file as [| s | u]; [done | done | by destruct (Hfile u)].
Qed.

(** Such a request is answered 422 and never reaches the endpoint body. *)
Lemma missing_rejected youtube_url audio_file w :
  bool_url youtube_url = false →
  (∀ u, audio_file ≠ FieldUpload u) →
  validate_and_process_inputs youtube_url audio_file = inl missing_input
  ∧ post_transcribe ext youtube_url audio_file w = (error_response missing_input, w)
  ∧ status (error_response missing_input) = 422.
Proof.
  intros Hurl Hfile. pose proof (validate_missing _ _ Hurl Hfile) as Hv.
  split; [done|]. split; [|done]. by apply post_transcribe_rejected.
Qed.

(** C2: a submission in which neither [youtube_url] nor [audio_file]
    carries a value (the URL is missing or empty, the file field holds
    no upload) is rejected with status 422, and no transcription work
    is done: the world is unchanged. *)
Theorem neither_field_rejected youtube_url audio_file w :
  bool_url youtube_url = false →
  (∀ u, audio_file ≠ FieldUpload u) →
  validate_and_process_inputs youtube_url audio_file = inl missing_input
  ∧ post_transcribe ext youtube_url audio_file w = (error_response missing_input, w)
  ∧ status (error_response missing_input) = 422.
Proof.
  intros Hurl Hfile.
  assert (validate_and_process_inputs youtube_url audio_file = inl missing_input) as Hv.
  { by apply validate_missing. }
  split; [exact Hv|]. split; [|reflexivity].
  unfold post_transcribe. by rewrite Hv.
Qed.

(** C3, as amended: a submission with a non-empty [youtube_url] and an
    uploaded file in [audio_file] is rejected with status 422, and no
    transcription work is done: the world is unchanged. *)
Theorem url_and_upload_rejected url u w :
  PyStr.truthy url = true →
  validate_and_process_inputs (Some url) (FieldUpload u) = inl conflicting_inputs
  ∧ post_transcribe ext (Some url) (FieldUpload u) w = (error_response conflicting_inputs, w)
  ∧ status (error_response conflicting_inputs) = 422.
Proof.
  intros Hurl.
  assert (validate_and_process_inputs (Some url) (FieldUpload u) = inl conflicting_inputs) as Hv.
  { unfold validate_and_process_inputs. simpl. by rewrite Hurl. }
  split; [done|]. split; [|done]. by apply post_transcribe_rejected.
Qed.

(** C7: an empty string in the file field is treated as an absent
    field. With a URL present the request passes validation with the
    file slot cleared and is served by the URL worker, exactly as if the
    field had been omitted; with no URL it is rejected with status 422
    for missing input. *)
Theorem empty_file_string_is_absent youtube_url w :
  validate_and_process_inputs youtube_url (FieldStr "") =
    validate_and_process_inputs youtube_url FieldAbsent
  ∧ post_transcribe ext youtube_url (FieldStr "") w =
      post_transcribe ext youtube_url FieldAbsent w
  ∧ if bool_url youtube_url then
      validate_and_process_inputs youtube_url (FieldStr "") =
        inr {| youtube_url := youtube_url; audio_file := FieldAbsent |}
      ∧ ∃ url, youtube_url = Some url
          ∧ dispatch ext {| youtube_url := youtube_url; audio_file := FieldAbsent |} =
            process_youtube_url ext url
    else
      validate_and_process_inputs youtube_url (FieldStr "") = inl missing_input
      ∧ post_transcribe ext youtube_url (FieldStr "") w = (error_response missing_input, w)
      ∧ status (error_response missing_input) = 422.
Proof.
  split; [done|]. split; [done|].
  destruct (bool_url youtube_url) eqn:Hurl.
  - split.
    + unfold validate_and_process_inputs. simpl. by rewrite Hurl.
    + destruct youtube_url as [url|]; [|done].
      exists url. split; [done|]. unfold dispatch. simpl in *. by rewrite Hurl.
  - apply missing_rejected; [done | discriminate].
Qed.

(** C10: an empty string in [youtube_url] is treated as an absent URL.
    Together with an uploaded file the request passes validation (it is
    not a conflict) and is served by the file worker, exactly as if no
    URL had been sent; with no uploaded file it is rejected with status
    422 for missing input. *)
Theorem empty_url_is_absent audio_file w :
  match audio_file with
  | FieldUpload u =>
      validate_and_process_inputs (Some "") audio_file =
        inr {| youtube_url := Some ""; audio_file := FieldUpload u |}
      ∧ dispatch ext {| youtube_url := Some ""; audio_file := FieldUpload u |} =
          process_audio_file ext (FieldUpload u)
      ∧ post_transcribe ext (Some "") audio_file w = post_transcribe ext None audio_file w
  | FieldAbsent | FieldStr _ =>
      validate_and_process_inputs (Some "") audio_file = inl missing_input
      ∧ post_transcribe ext (Some "") audio_file w = (error_response missing_input, w)
      ∧ status (error_response missing_input) = 422
  end.
Proof.
  destruct audio_file as [| s | u].
  - by apply missing_rejected.
  - by apply missing_rejected.
  - split; [done|]. split; [done|].
    unfold post_transcribe. simpl.
    by rewrite (transcribe_endpoint_dispatch
                  {| youtube_url := Some ""; audio_file := FieldUpload u |}
                  {| youtube_url := None; audio_file := FieldUpload u |}).
Qed.

End Validation.

(** C3, as stated, fails: a non-empty URL together with a non-empty
    string in the file field passes validation with the file slot
    cleared, and the request is served from the URL with status 200. *)
Lemma url_and_text_in_file_field_accepted :
  bool_url (Some Scenario.video) = true
  ∧ bool_file (FieldStr "clip.mp3") = true
  ∧ validate_and_process_inputs (Some Scenario.video) (FieldStr "clip.mp3") =
      inr {| youtube_url := Some Scenario.video; audio_file := FieldAbsent |}
  ∧ status (post_transcribe Scenario.studio (Some Scenario.video) (FieldStr "clip.mp3")
              Scenario.boot).1 = 200
  ∧ calls (post_transcribe Scenario.studio (Some Scenario.video) (FieldStr "clip.mp3")
             Scenario.boot).2 =
      [ CallDownload (ydl_opts "/tmp/tmp0") [Scenario.video];
        CallTranscribe "/tmp/tmp0/audio.mp3" false ].
Proof. repeat split; vm_compute; reflexivity. Qed.

(** An empty string in the file field and no URL at all. *)
Lemma neither_field_rejected_witness :
  validate_and_process_inputs None (FieldStr "") = inl missing_input
  ∧ post_transcribe Scenario.studio None (FieldStr "") Scenario.boot =
      (error_response missing_input, Scenario.boot)
  ∧ status (error_response missing_input) = 422.
Proof.
  apply (neither_field_rejected Scenario.studio None (FieldStr "") Scenario.boot).
  - reflexivity.
  - intros u. discriminate.
Defined.

(** A video URL sent together with an uploaded clip. *)
Lemma url_and_upload_rejected_witness :
  validate_and_process_inputs (Some Scenario.video) (FieldUpload Scenario.clip) =
    inl conflicting_inputs
  ∧ post_transcribe Scenario.studio (Some Scenario.video) (FieldUpload Scenario.clip)
      Scenario.boot = (error_response conflicting_inputs, Scenario.boot)
  ∧ status (error_response conflicting_inputs) = 422.
Proof.
  apply (url_and_upload_rejected Scenario.studio Scenario.video Scenario.clip Scenario.boot).
  reflexivity.
Defined.

(** ** Error classification at the endpoint *)

Lemma download_indicator_decide msg :
  PyStr.contains "HTTP Error 403" msg || PyStr.contains "unable to download" msg = true
  ↔ download_indicator msg.
Proof. unfold download_indicator, occurs_in. by rewrite orb_true_iff, !contains_spec. Qed.

Lemma download_indicator_refute msg :
  PyStr.contains "HTTP Error 403" msg || PyStr.contains "unable to download" msg = false
  ↔ ¬ download_indicator msg.
Proof.
  rewrite <-download_indicator_decide.
  by destruct (PyStr.contains "HTTP Error 403" msg || PyStr.contains "unable to download" msg).
Qed.

Lemma unexpected_error_carries_message msg :
  occurs_in msg (detail (unexpected_error msg)).
Proof. apply contains_spec, contains_app_r. Qed.

Section Classification.

Context (ext : Collaborators).

(** What the [except] clause makes of an exception of the worker. *)
Lemma endpoint_on_exception inputs w e w' :
  dispatch ext inputs w = (inl e, w') →
  transcribe_endpoint ext inputs w =
    (inl (if PyStr.contains "HTTP Error 403" (exn_str e)
             || PyStr.contains "unable to download" (exn_str e)
          then source_unavailable
          else unexpected_error (exn_str e)), w').
Proof.
  intros H. unfold transcribe_endpoint. rewrite H.
  by destruct (PyStr.contains "HTTP Error 403" (exn_str e)
               || PyStr.contains "unable to download" (exn_str e)).
Qed.

Lemma endpoint_on_success inputs w transcript w' :
  dispatch ext inputs w = (inr transcript, w') →
  transcribe_endpoint ext inputs w = (inr {[ "transcript" := transcript ]}, w').
Proof. intros H. unfold transcribe_endpoint. by rewrite H. Qed.

(** C5: when an exception escapes the worker, the endpoint answers 400
    with the "may be private or protected" message if the exception's
    message contains "HTTP Error 403" or "unable to download", and
    otherwise 500 with a detail that contains the original message. *)
Theorem worker_exception_classified inputs w e w' :
  dispatch ext inputs w = (inl e, w') →
  (download_indicator (exn_str e) →
     transcribe_endpoint ext inputs w = (inl source_unavailable, w'))
  ∧ (¬ download_indicator (exn_str e) →
       transcribe_endpoint ext inputs w = (inl (unexpected_error (exn_str e)), w'))
  ∧ status_code source_unavailable = 400
  ∧ occurs_in "private or protected" (detail source_unavailable)
  ∧ status_code (unexpected_error (exn_str e)) = 500
  ∧ occurs_in (exn_str e) (detail (unexpected_error (exn_str e))).
Proof.
  intros H. rewrite (endpoint_on_exception _ _ _ _ H).
  split; [|split; [|split; [|split; [|split]]]].
  - intros Hyes%download_indicator_decide. by rewrite Hyes.
  - intros Hno%download_indicator_refute. by rewrite Hno.
  - done.
  - apply contains_spec. by vm_compute.
  - done.
  - apply unexpected_error_carries_message.
Qed.

(** C6, as amended: on a file-backed request (an upload and no URL), an
    exception of the worker whose message contains neither "HTTP Error
    403" nor "unable to download" is answered with status 500 and a
    detail that contains the original message. *)
Theorem upload_exception_is_server_error youtube_url u w e w' :
  bool_url youtube_url = false →
  process_audio_file ext (FieldUpload u) w = (inl e, w') →
  ¬ download_indicator (exn_str e) →
  post_transcribe ext youtube_url (FieldUpload u) w =
    (error_response (unexpected_error (exn_str e)), w')
  ∧ status (error_response (unexpected_error (exn_str e))) = 500
  ∧ occurs_in (exn_str e) (detail (unexpected_error (exn_str e))).
Proof.
  intros Hurl Hraise Hno%download_indicator_refute.
  split; [|split; [done | apply unexpected_error_carries_message]].
  assert (validate_and_process_inputs youtube_url (FieldUpload u) =
          inr {| youtube_url := youtube_url; audio_file := FieldUpload u |}) as Hv.
  { unfold validate_and_process_inputs. simpl. by rewrite Hurl. }
  rewrite (post_transcribe_accepted _ _ _ _ _ Hv).
  assert (dispatch ext {| youtube_url := youtube_url; audio_file := FieldUpload u |} w =
          (inl e, w')) as Hd.
  { unfold dispatch. simpl. destruct youtube_url as [url|]; [|done].
    simpl in Hurl. by rewrite Hurl. }
  by rewrite (endpoint_on_exception _ _ _ _ Hd), Hno.
Qed.

End Classification.

(** The extractor is refused with "HTTP Error 403": the answer is 400. *)
Lemma worker_exception_classified_witness :
  let inputs := {| youtube_url := Some Scenario.video; audio_file := FieldAbsent |} in
  let e := Exn "DownloadError"
             "ERROR: unable to download video data: HTTP Error 403: Forbidden" in
  let w' := (dispatch Scenario.forbidden inputs Scenario.boot).2 in
  dispatch Scenario.forbidden inputs Scenario.boot = (inl e, w')
  ∧ transcribe_endpoint Scenario.forbidden inputs Scenario.boot = (inl source_unavailable, w').
Proof.
  intros inputs e w'.
  assert (dispatch Scenario.forbidden inputs Scenario.boot = (inl e, w')) as H.
  { vm_compute. reflexivity. }
  split; [exact H|].
  apply (worker_exception_classified Scenario.forbidden inputs Scenario.boot e w' H).
  apply download_indicator_decide. vm_compute. reflexivity.
Defined.

(** C6, as stated, fails: an upload whose decoding error happens to
    contain "unable to download" is answered with status 400 and the
    message about a YouTube URL, although the request had no URL. *)
Lemma upload_exception_reported_as_client_error :
  let r := post_transcribe Scenario.undecodable None (FieldUpload Scenario.clip) Scenario.boot in
  validate_and_process_inputs None (FieldUpload Scenario.clip) =
    inr {| youtube_url := None; audio_file := FieldUpload Scenario.clip |}
  ∧ (process_audio_file Scenario.undecodable (FieldUpload Scenario.clip) Scenario.boot).1 =
      inl (Exn "RuntimeError"
             "Failed to load audio: Metadata: title: unable to download; Output file does not contain any stream")
  ∧ status r.1 = 400
  ∧ status r.1 ≠ 500
  ∧ content r.1 !! "detail" = Some (VStr (detail source_unavailable)).
Proof. repeat split; vm_compute; (reflexivity || discriminate). Qed.

(** The model runs out of memory on an upload: the answer is 500. *)
Lemma upload_exception_is_server_error_witness :
  let e := Exn "RuntimeError" "out of memory" in
  let w' := (process_audio_file Scenario.out_of_memory (FieldUpload Scenario.clip)
               Scenario.boot).2 in
  post_transcribe Scenario.out_of_memory (Some "") (FieldUpload Scenario.clip) Scenario.boot =
    (error_response (unexpected_error (exn_str e)), w')
  ∧ status (error_response (unexpected_error (exn_str e))) = 500
  ∧ occurs_in (exn_str e) (detail (unexpected_error (exn_str e))).
Proof.
  intros e w'.
  apply (upload_exception_is_server_error Scenario.out_of_memory (Some "") Scenario.clip
           Scenario.boot e w').
  - reflexivity.
  - vm_compute. reflexivity.
  - apply download_indicator_refute. vm_compute. reflexivity.
Defined.

(** ** Temporary names and paths *)

Section Paths.

Implicit Types (s t d : string) (w : world).

Lemma uint_free_of_slash u : free_of "/"%char (NilEmpty.string_of_uint u) = true.
Proof. induction u; simpl; [done | by rewrite ?IHu..]. Qed.

Lemma uint_free_of_percent u : free_of "%"%char (NilEmpty.string_of_uint u) = true.
Proof. induction u; simpl; [done | by rewrite ?IHu..]. Qed.

(** The shape of a temporary directory's name. *)
Lemma tmp_dir_name w : tmp_name "" w = "/tmp/tmp" +:+ PyStr.of_nat (tmp_seq w).
Proof. unfold tmp_name. by rewrite app_empty_r. Qed.

Lemma endswith_slash_free c s :
  c ≠ "/"%char → free_of "/"%char s = true → PyStr.endswith "/" (String c s) = false.
Proof.
  revert c. induction s as [|b s IH]; intros c Hc Hs.
  - simpl. rewrite bool_decide_eq_false_2; [done | congruence].
  - change (PyStr.endswith "/" (String c (String b s)))
      with (bool_decide (String c (String b s) = "/") || PyStr.endswith "/" (String b s)).
    rewrite bool_decide_eq_false_2 by congruence.
    simpl in Hs. apply andb_true_iff in Hs as [Hb Hs].
    apply IH; [|done]. apply negb_true_iff, bool_decide_eq_false in Hb. done.
Qed.

Lemma endswith_skip p a b s :
  String.length p = 1 →
  PyStr.endswith p (String a (String b s)) = PyStr.endswith p (String b s).
Proof.
  intros Hp.
  change (PyStr.endswith p (String a (String b s)))
    with (bool_decide (String a (String b s) = p) || PyStr.endswith p (String b s)).
  rewrite bool_decide_eq_false_2; [done|]. intros <-. discriminate.
Qed.

Lemma tmp_dir_no_trailing_slash w : PyStr.endswith "/" (tmp_name "" w) = false.
Proof.
  rewrite tmp_dir_name. unfold PyStr.of_nat.
  change ("/tmp/tmp" +:+ ?s) with
    (String "/" (String "t" (String "m" (String "p"
      (String "/" (String "t" (String "m" (String "p" s)))))))).
  rewrite !endswith_skip by done.
  apply endswith_slash_free; [done|]. simpl. apply uint_free_of_slash.
Qed.

(** [os.path.join] of a temporary directory and a relative name. *)
Lemma tmp_dir_join w b :
  PyStr.startswith "/" b = false →
  os_path_join (tmp_name "" w) b = tmp_name "" w +:+ "/" +:+ b.
Proof.
  intros Hb. unfold os_path_join. rewrite Hb, tmp_dir_no_trailing_slash.
  by rewrite tmp_dir_name.
Qed.

Lemma in_tree_child d b : in_tree d (d +:+ "/" +:+ b) = true.
Proof.
  unfold in_tree. apply orb_true_iff. right.
  apply startswith_spec. exists b. by rewrite app_assoc'.
Qed.

(** Template expansion leaves a prefix without [%] alone. *)
Lemma replace_ext_prefix pre s e :
  free_of "%"%char pre = true →
  PyStr.replace "%(ext)s" e (pre +:+ s) = pre +:+ PyStr.replace "%(ext)s" e s.
Proof.
  unfold PyStr.replace. induction pre as [|c pre IH]; intros Hpre; [done|].
  simpl in Hpre. apply andb_true_iff in Hpre as [Hc Hpre].
  apply negb_true_iff, bool_decide_eq_false in Hc.
  rewrite !app_cons.
  change (PyStr.replace_go "%(ext)s" e 0 (String c (pre +:+ s))) with
    (if PyStr.startswith "%(ext)s" (String c (pre +:+ s))
     then e +:+ PyStr.replace_go "%(ext)s" e (String.length "%(ext)s" - 1) (pre +:+ s)
     else String c (PyStr.replace_go "%(ext)s" e 0 (pre +:+ s))).
  assert (PyStr.startswith "%(ext)s" (String c (pre +:+ s)) = false) as ->.
  { simpl. case_decide; [congruence | done]. }
  by rewrite IH.
Qed.

Lemma tmp_dir_free_of_percent w : free_of "%"%char (tmp_name "" w) = true.
Proof.
  rewrite tmp_dir_name. unfold PyStr.of_nat.
  change ("/tmp/tmp" +:+ ?s) with
    (String "/" (String "t" (String "m" (String "p"
      (String "/" (String "t" (String "m" (String "p" s)))))))).
  simpl. apply uint_free_of_percent.
Qed.

(** The extractor's template for a temporary directory names
    [audio.mp3] in that directory once the mp3 post-processor has run. *)
Lemma tmp_dir_template_mp3 w :
  render_outtmpl (tmp_name "" w +:+ "/audio.%(ext)s") "mp3" =
  tmp_name "" w +:+ "/audio.mp3".
Proof.
  unfold render_outtmpl.
  by rewrite replace_ext_prefix by apply tmp_dir_free_of_percent.
Qed.

End Paths.

(** ** The transcription worker *)

Section Worker.

Context (ext : Collaborators).

(** *** Inference *)

Lemma transcribe_audio_result file_path w :
  (transcribe_audio ext file_path w).1 =
    match whisper_transcribe ext file_path false with
    | inl e => inl e
    | inr result =>
        match result !! "text" with
        | Some text => inr text
        | None => inl (KeyError "text")
        end
    end.
Proof.
  unfold transcribe_audio, mbind, M_bind, print, model_transcribe, getitem. simpl.
  destruct (whisper_transcribe ext file_path false) as [e|result]; [done|].
  by destruct (result !! "text").
Qed.

Lemma transcribe_audio_calls file_path w :
  calls (transcribe_audio ext file_path w).2 = calls w ++ [CallTranscribe file_path false].
Proof.
  unfold transcribe_audio, mbind, M_bind, print, model_transcribe, getitem. simpl.
  destruct (whisper_transcribe ext file_path false) as [e|result]; [done|].
  by destruct (result !! "text").
Qed.

Lemma transcribe_audio_fs file_path w :
  fs (transcribe_audio ext file_path w).2 = fs w.
Proof.
  unfold transcribe_audio, mbind, M_bind, print, model_transcribe, getitem. simpl.
  destruct (whisper_transcribe ext file_path false) as [e|result]; [done|].
  by destruct (result !! "text").
Qed.

(** *** The URL worker *)

Lemma extraction_calls url w :
  calls (extraction ext url w).2 = calls w ++ [CallDownload (ydl_opts (tmp_name "" w)) [url]].
Proof.
  unfold extraction, mbind, M_bind, print, YoutubeDL_download. simpl.
  destruct (ydl_download ext _ _) as [files [e|]]; done.
Qed.

(** The URL worker, step by step. *)
Lemma process_youtube_url_run url w :
  process_youtube_url ext url w =
    let d := tmp_name "" w in
    match extraction ext url w with
    | (inl e, w2) => (inl e, set_fs (rmtree d) w2)
    | (inr _, w2) =>
        if bool_decide (is_Some (fs w2 !! os_path_join d "audio.mp3")) then
          let '(r, w3) := transcribe_audio ext (os_path_join d "audio.mp3") w2 in
          (r, set_fs (rmtree d) w3)
        else
          (inl (FileNotFoundError "Failed to download audio from the URL."),
           set_fs (rmtree d) w2)
    end.
Proof.
  unfold process_youtube_url, with_TemporaryDirectory, extraction.
  unfold mbind, M_bind, print, YoutubeDL_download, os_path_exists, raise.
  cbv zeta.
  destruct (ydl_download ext (ydl_opts (tmp_name "" w)) [url]) as [files [e|]]; [done|].
  cbv beta iota.
  by destruct (bool_decide (is_Some _)).
Qed.

(** The collaborator calls of the URL worker: one download, then at most
    one inference, on [audio.mp3] in the temporary directory. *)
Lemma url_worker_calls url w :
  ∃ rest,
    calls (process_youtube_url ext url w).2 =
      calls w ++ CallDownload (ydl_opts (tmp_name "" w)) [url] :: rest
    ∧ (rest = [] ∨ rest = [CallTranscribe (os_path_join (tmp_name "" w) "audio.mp3") false]).
Proof.
  rewrite process_youtube_url_run. simpl.
  pose proof (extraction_calls url w) as Hcalls.
  destruct (extraction ext url w) as [[e|[]] w2]; simpl in *.
  - exists []. by rewrite Hcalls; auto.
  - case_bool_decide.
    + pose proof (transcribe_audio_calls (os_path_join (tmp_name "" w) "audio.mp3") w2) as Ht.
      destruct (transcribe_audio ext _ w2) as [r w3]. simpl in *.
      eexists. split; [|by right]. rewrite Ht, Hcalls. by rewrite <-app_assoc.
    + simpl. exists []. by rewrite Hcalls; auto.
Qed.

(** Whatever happens in the block, nothing at or below the temporary
    directory is left when the URL worker returns or raises. *)
Lemma url_worker_removes_tree url w path :
  in_tree (tmp_name "" w) path = true →
  fs (process_youtube_url ext url w).2 !! path = None.
Proof.
  intros Hin. unfold process_youtube_url, with_TemporaryDirectory.
  match goal with |- context [let '(_, _) := ?run in _] => destruct run as [r w1] end.
  simpl.
  unfold rmtree. apply map_lookup_filter_None. right.
  intros x _ Hkeep. simpl in Hkeep. rewrite Hin in Hkeep. by apply Hkeep.
Qed.

(** C4, as amended: when the extraction step returns normally but
    [audio.mp3] is not in the temporary directory, the URL worker raises
    [FileNotFoundError("Failed to download audio from the URL.")], whose
    message carries neither indicator, and the request is answered with
    status 500 and that message in the detail. *)
Theorem missing_output_is_server_error url audio_file w w2 :
  PyStr.truthy url = true →
  (∀ u, audio_file ≠ FieldUpload u) →
  extraction ext url w = (inr (), w2) →
  fs w2 !! os_path_join (tmp_name "" w) "audio.mp3" = None →
  process_youtube_url ext url w =
    (inl (FileNotFoundError "Failed to download audio from the URL."),
     set_fs (rmtree (tmp_name "" w)) w2)
  ∧ post_transcribe ext (Some url) audio_file w =
      (error_response (unexpected_error "Failed to download audio from the URL."),
       set_fs (rmtree (tmp_name "" w)) w2)
  ∧ status (error_response (unexpected_error "Failed to download audio from the URL.")) = 500.
Proof.
  intros Hurl Hfile Hext Habsent.
  assert (process_youtube_url ext url w =
          (inl (FileNotFoundError "Failed to download audio from the URL."),
           set_fs (rmtree (tmp_name "" w)) w2)) as Hrun.
  { rewrite process_youtube_url_run. simpl. rewrite Hext.
    rewrite bool_decide_eq_false_2; [done|]. rewrite Habsent. by intros [? ?]. }
  split; [done|]. split; [|done].
  assert (validate_and_process_inputs (Some url) audio_file =
          inr {| youtube_url := Some url; audio_file := FieldAbsent |}) as Hv.
  { unfold validate_and_process_inputs.
    destruct audio_file as [| s | u]; simpl; rewrite ?Hurl; try done.
    by destruct (Hfile u). }
  rewrite (post_transcribe_accepted _ _ _ _ _ Hv).
  assert (dispatch ext {| youtube_url := Some url; audio_file := FieldAbsent |} w =
          (inl (FileNotFoundError "Failed to download audio from the URL."),
           set_fs (rmtree (tmp_name "" w)) w2)) as Hd.
  { unfold dispatch. simpl. by rewrite Hurl. }
  by rewrite (endpoint_on_exception _ _ _ _ _ Hd).
Qed.

(** C9: the URL worker invokes the extractor exactly once, with the one
    URL of the request, and with options that select the best available
    audio, transcode to mp3 at quality 192, and name the output by a
    template that puts [audio.mp3] into the request's temporary
    directory: the very path the worker goes on to check and
    transcribe. *)
Theorem extractor_configuration url w :
  let d := tmp_name "" w in
  (∃ rest,
     calls (process_youtube_url ext url w).2 =
       calls w ++ CallDownload (ydl_opts d) [url] :: rest
     ∧ (rest = [] ∨ rest = [CallTranscribe (os_path_join d "audio.mp3") false]))
  ∧ format (ydl_opts d) = "bestaudio/best"
  ∧ postprocessors (ydl_opts d) =
      [ {| key := "FFmpegExtractAudio"; preferredcodec := "mp3"; preferredquality := "192" |} ]
  ∧ outtmpl (ydl_opts d) = d +:+ "/audio.%(ext)s"
  ∧ render_outtmpl (outtmpl (ydl_opts d)) "mp3" = os_path_join d "audio.mp3"
  ∧ os_path_join d "audio.mp3" = d +:+ "/audio.mp3"
  ∧ in_tree d (os_path_join d "audio.mp3") = true.
Proof.
  intros d. subst d.
  assert (os_path_join (tmp_name "" w) "audio.mp3" = tmp_name "" w +:+ "/audio.mp3") as Hmp3.
  { by apply tmp_dir_join. }
  assert (outtmpl (ydl_opts (tmp_name "" w)) = tmp_name "" w +:+ "/audio.%(ext)s") as Htmpl.
  { simpl. by apply tmp_dir_join. }
  split; [|split; [done|split; [done|split; [done|split; [|split; [done|]]]]]].
  - apply url_worker_calls.
  - rewrite Htmpl, Hmp3. apply tmp_dir_template_mp3.
  - rewrite Hmp3. apply in_tree_child.
Qed.

(** *** The file worker *)

(** Once the upload has been written, the temporary file is unlinked
    whether inference returns or raises, and the outcome of inference is
    passed on. *)
Lemma file_worker_removes_file u bytes w :
  file_read u = inr bytes →
  disk_write ext (tmp_name ".tmp" w) bytes = None →
  fs (process_audio_file ext (FieldUpload u) w).2 = delete (tmp_name ".tmp" w) (fs w)
  ∧ fs (process_audio_file ext (FieldUpload u) w).2 !! tmp_name ".tmp" w = None.
Proof.
  intros Hread Hwrite.
  assert (fs (process_audio_file ext (FieldUpload u) w).2 = delete (tmp_name ".tmp" w) (fs w))
    as Hfs; [|split; [done | by rewrite Hfs, lookup_delete_eq]].
  unfold process_audio_file, with_NamedTemporaryFile_nodelete, try_finally.
  unfold mbind, M_bind, file_write, os_unlink. rewrite Hread. simpl. rewrite Hwrite.
  unfold mret, M_ret. cbv beta iota.
  match goal with |- context [transcribe_audio ext ?p ?w1] =>
    pose proof (transcribe_audio_fs p w1) as Hsame;
    destruct (transcribe_audio ext p w1) as [r w2]
  end.
  simpl in Hsame. rewrite Hsame, lookup_insert_eq. simpl.
  by rewrite Hsame, !delete_insert_eq.
Qed.

(** If writing the upload raises, the exception leaves the function
    before the [try]: the temporary file stays on disk. *)
Lemma file_worker_write_failure u bytes e w :
  file_read u = inr bytes →
  disk_write ext (tmp_name ".tmp" w) bytes = Some e →
  process_audio_file ext (FieldUpload u) w = (inl e, temp_file_created w)
  ∧ fs (temp_file_created w) !! tmp_name ".tmp" w = Some (File []).
Proof.
  intros Hread Hwrite. split; [|apply lookup_insert_eq].
  unfold process_audio_file, with_NamedTemporaryFile_nodelete.
  unfold mbind, M_bind, file_write. rewrite Hread. simpl. by rewrite Hwrite.
Qed.

(** Likewise if reading the upload raises. *)
Lemma file_worker_read_failure u e w :
  file_read u = inl e →
  process_audio_file ext (FieldUpload u) w = (inl e, temp_file_created w)
  ∧ fs (temp_file_created w) !! tmp_name ".tmp" w = Some (File []).
Proof.
  intros Hread. split; [|apply lookup_insert_eq].
  unfold process_audio_file, with_NamedTemporaryFile_nodelete.
  unfold mbind, M_bind. by rewrite Hread.
Qed.

(** *** Model calls of a whole request *)

Lemma file_worker_calls file w :
  calls (process_audio_file ext file w).2 = calls w
  ∨ calls (process_audio_file ext file w).2 =
      calls w ++ [CallTranscribe (tmp_name ".tmp" w) false].
Proof.
  unfold process_audio_file, with_NamedTemporaryFile_nodelete, try_finally.
  unfold mbind, M_bind, file_write, os_unlink, raise, mret, M_ret.
  destruct file as [| s | u]; [by left | by left |].
  destruct (file_read u) as [e|bytes]; [by left|].
  destruct (disk_write ext (tmp_name ".tmp" w) bytes) as [e|]; [by left|].
  right.
  match goal with |- context [transcribe_audio ext ?p ?w1] =>
    pose proof (transcribe_audio_calls p w1) as Hcalls;
    destruct (transcribe_audio ext p w1) as [r w2]
  end.
  simpl in Hcalls. by destruct (fs w2 !! tmp_name ".tmp" w) as [[|data]|].
Qed.

Lemma dispatch_calls inputs w :
  ∃ new, calls (dispatch ext inputs w).2 = calls w ++ new ∧ Forall fp16_off new.
Proof.
  assert (∀ file, ∃ new, calls (process_audio_file ext file w).2 = calls w ++ new
                         ∧ Forall fp16_off new) as Hfile.
  { intros file. destruct (file_worker_calls file w) as [-> | ->].
    - exists []. by rewrite app_nil_r.
    - eexists. split; [done|]. by repeat constructor. }
  unfold dispatch. destruct (youtube_url inputs) as [url|]; [|apply Hfile].
  destruct (PyStr.truthy url); [|apply Hfile].
  destruct (url_worker_calls url w) as (rest & -> & [-> | ->]);
    eexists; (split; [done|]); by repeat constructor.
Qed.

Lemma request_calls youtube_url audio_file w :
  ∃ new,
    calls (post_transcribe ext youtube_url audio_file w).2 = calls w ++ new
    ∧ Forall fp16_off new.
Proof.
  unfold post_transcribe.
  destruct (validate_and_process_inputs youtube_url audio_file) as [e|inputs].
  { exists []. by rewrite app_nil_r. }
  unfold transcribe_endpoint.
  destruct (dispatch_calls inputs w) as (new & Hnew & Hoff).
  exists new. split; [|done].
  destruct (dispatch ext inputs w) as [[e|transcript] w']; simpl in *; [|done].
  by destruct (PyStr.contains "HTTP Error 403" (exn_str e)
               || PyStr.contains "unable to download" (exn_str e)).
Qed.

(** C8: every run of inference on a file path calls the model's
    transcription routine once, on that path, with [fp16] switched off;
    what is returned is the ["text"] entry of the model's result (and
    an exception of the model is passed on). No request makes a model
    call with [fp16] on. *)
Theorem inference_fp16_off_returns_text file_path w :
  calls (transcribe_audio ext file_path w).2 = calls w ++ [CallTranscribe file_path false]
  ∧ (∀ youtube_url audio_file, ∃ new,
       calls (post_transcribe ext youtube_url audio_file w).2 = calls w ++ new
       ∧ Forall fp16_off new)
  ∧ (∀ result text,
       whisper_transcribe ext file_path false = inr result →
       result !! "text" = Some text →
       (transcribe_audio ext file_path w).1 = inr text)
  ∧ (∀ e,
       whisper_transcribe ext file_path false = inl e →
       (transcribe_audio ext file_path w).1 = inl e).
Proof.
  split; [apply transcribe_audio_calls|].
  split; [intros youtube_url audio_file; apply request_calls|].
  rewrite transcribe_audio_result.
  split; [intros result text -> -> | intros e ->]; done.
Qed.

End Worker.

(** C1: the file worker does not remove its temporary file on every
    exit. With the temporary partition full, writing the upload raises
    before the [try ... finally] is entered; the request is answered with
    status 500 and [/tmp/tmp0.tmp], created for this request, is still on
    disk afterwards. *)
Theorem upload_write_failure_leaves_temp_file :
  let worker := process_audio_file Scenario.disk_full (FieldUpload Scenario.clip) Scenario.boot in
  let request := post_transcribe Scenario.disk_full None (FieldUpload Scenario.clip) Scenario.boot in
  fs Scenario.boot !! "/tmp/tmp0.tmp" = None
  ∧ worker.1 = inl (Exn "OSError" "[Errno 28] No space left on device")
  ∧ fs worker.2 !! "/tmp/tmp0.tmp" = Some (File [])
  ∧ status request.1 = 500
  ∧ fs request.2 !! "/tmp/tmp0.tmp" = Some (File []).
Proof. repeat split; vm_compute; reflexivity. Qed.

(** C4, as stated, fails: the extractor returns normally, [audio.mp3] is
    not there, and the request is answered with status 500, not 400. *)
Lemma missing_output_not_client_error :
  let request := post_transcribe Scenario.silent_extractor (Some Scenario.video) FieldAbsent
                   Scenario.boot in
  (extraction Scenario.silent_extractor Scenario.video Scenario.boot).1 = inr ()
  ∧ fs (extraction Scenario.silent_extractor Scenario.video Scenario.boot).2
      !! "/tmp/tmp0/audio.mp3" = None
  ∧ status request.1 = 500
  ∧ status request.1 ≠ 400
  ∧ content request.1 !! "detail" =
      Some (VStr "An unexpected error occurred during transcription: Failed to download audio from the URL.").
Proof. repeat split; vm_compute; (reflexivity || discriminate). Qed.

(** The extractor that silently produces nothing. *)
Lemma missing_output_is_server_error_witness :
  let w2 := (extraction Scenario.silent_extractor Scenario.video Scenario.boot).2 in
  process_youtube_url Scenario.silent_extractor Scenario.video Scenario.boot =
    (inl (FileNotFoundError "Failed to download audio from the URL."),
     set_fs (rmtree (tmp_name "" Scenario.boot)) w2)
  ∧ post_transcribe Scenario.silent_extractor (Some Scenario.video) FieldAbsent Scenario.boot =
      (error_response (unexpected_error "Failed to download audio from the URL."),
       set_fs (rmtree (tmp_name "" Scenario.boot)) w2)
  ∧ status (error_response (unexpected_error "Failed to download audio from the URL.")) = 500.
Proof.
  intros w2.
  apply (missing_output_is_server_error Scenario.silent_extractor Scenario.video FieldAbsent
           Scenario.boot w2).
  - reflexivity.
  - intros u. discriminate.
  - vm_compute. reflexivity.
  - vm_compute. reflexivity.
Defined.

(** The model recognises " Hello world." and that text is returned. *)
Lemma inference_fp16_off_returns_text_witness :
  (transcribe_audio Scenario.studio "/tmp/tmp0.tmp" Scenario.boot).1 = inr (VStr " Hello world.").
Proof.
  apply (proj1 (proj2 (proj2 (inference_fp16_off_returns_text Scenario.studio "/tmp/tmp0.tmp"
                                Scenario.boot))) Scenario.hello).
  - reflexivity.
  - vm_compute. reflexivity.
Defined.

(** * Further properties of the service *)

(** ** Validation and the shape of responses *)

Section Requests.

Context (ext : Collaborators).

Lemma validate_rejects_422 youtube_url audio_file e :
  validate_and_process_inputs youtube_url audio_file = inl e → status_code e = 422.
Proof.
  unfold validate_and_process_inputs.
  destruct (bool_url youtube_url), audio_file as [| s | u]; simpl; by intros [= <-].
Qed.

Lemma validate_upload youtube_url u :
  bool_url youtube_url = false →
  validate_and_process_inputs youtube_url (FieldUpload u) =
    inr {| youtube_url := youtube_url; audio_file := FieldUpload u |}.
Proof. intros Hurl. unfold validate_and_process_inputs. simpl. by rewrite Hurl. Qed.

Lemma validate_url url audio_file :
  PyStr.truthy url = true →
  is_upload audio_file = false →
  validate_and_process_inputs (Some url) audio_file =
    inr {| youtube_url := Some url; audio_file := FieldAbsent |}.
Proof.
  intros Hurl Hfile. unfold validate_and_process_inputs.
  destruct audio_file as [| s | u]; simpl; rewrite ?Hurl; done.
Qed.

Lemma dispatch_upload youtube_url file :
  bool_url youtube_url = false →
  dispatch ext {| youtube_url := youtube_url; audio_file := file |} =
    process_audio_file ext file.
Proof.
  intros Hurl. unfold dispatch. simpl.
  destruct youtube_url as [url|]; [|done]. simpl in Hurl. by rewrite Hurl.
Qed.

Lemma dispatch_url url file :
  PyStr.truthy url = true →
  dispatch ext {| youtube_url := Some url; audio_file := file |} =
    process_youtube_url ext url.
Proof. intros Hurl. unfold dispatch. simpl. by rewrite Hurl. Qed.

(** X1: the validator accepts a submission exactly when one of the two
    sources is given, a non-empty URL or an uploaded file, but not both.
    An accepted submission comes back with the URL as sent and the file
    slot holding the upload or nothing; a rejected one gets 422, for a
    conflict if the URL was given and for missing input otherwise. *)
Theorem validator_accepts_exactly_one youtube_url audio_file :
  match validate_and_process_inputs youtube_url audio_file with
  | inr inputs =>
      xorb (bool_url youtube_url) (is_upload audio_file) = true
      ∧ inputs = {| youtube_url := youtube_url;
                    audio_file := if is_upload audio_file then audio_file else FieldAbsent |}
  | inl e =>
      xorb (bool_url youtube_url) (is_upload audio_file) = false
      ∧ status_code e = 422
      ∧ e = if bool_url youtube_url then conflicting_inputs else missing_input
  end.
Proof.
  unfold validate_and_process_inputs.
  destruct (bool_url youtube_url), audio_file as [| s | u]; simpl; done.
Qed.

(** X2: inputs that passed validation select the URL worker on a
    non-empty URL (the file slot is then empty) and otherwise the file
    worker on an actual upload: the endpoint never hands the file worker a
    missing file or a string. *)
Theorem validated_inputs_dispatch youtube_url audio_file inputs :
  validate_and_process_inputs youtube_url audio_file = inr inputs →
  (∃ url, youtube_url = Some url
     ∧ PyStr.truthy url = true
     ∧ inputs = {| youtube_url := Some url; audio_file := FieldAbsent |}
     ∧ dispatch ext inputs = process_youtube_url ext url)
  ∨ (∃ u, audio_file = FieldUpload u
       ∧ bool_url youtube_url = false
       ∧ inputs = {| youtube_url := youtube_url; audio_file := FieldUpload u |}
       ∧ dispatch ext inputs = process_audio_file ext (FieldUpload u)).
Proof.
  intros Hv.
  destruct (bool_url youtube_url) eqn:Hurl.
  - left. destruct youtube_url as [url|]; [|done]. simpl in Hurl.
    exists url. split; [done|]. split; [done|].
    destruct audio_file as [| s | u].
    + rewrite validate_url in Hv by done. injection Hv as <-.
      split; [done|]. by apply dispatch_url.
    + rewrite validate_url in Hv by done. injection Hv as <-.
      split; [done|]. by apply dispatch_url.
    + unfold validate_and_process_inputs in Hv. simpl in Hv. by rewrite Hurl in Hv.
  - right. destruct audio_file as [| s | u].
    + unfold validate_and_process_inputs in Hv. simpl in Hv. by rewrite Hurl in Hv.
    + unfold validate_and_process_inputs in Hv. simpl in Hv. by rewrite Hurl in Hv.
    + exists u. split; [done|]. split; [done|].
      rewrite validate_upload in Hv by done. injection Hv as <-.
      split; [done|]. by apply dispatch_upload.
Qed.

(** X3: every answer of [POST /transcribe] has one of four shapes: 422
    with the validator's detail and the world untouched; 200 with the
    transcript the worker returned; 400 with the fixed "private or
    protected" detail when the worker raised with a download indicator in
    its message; 500 with the worker's message otherwise. *)
Theorem response_shapes youtube_url audio_file w :
  let r := (post_transcribe ext youtube_url audio_file w).1 in
  let w' := (post_transcribe ext youtube_url audio_file w).2 in
  (∃ e, validate_and_process_inputs youtube_url audio_file = inl e
     ∧ r = error_response e ∧ status r = 422 ∧ w' = w)
  ∨ (∃ inputs, validate_and_process_inputs youtube_url audio_file = inr inputs
       ∧ ((∃ transcript, dispatch ext inputs w = (inr transcript, w')
             ∧ r = {| status := 200; content := {[ "transcript" := transcript ]} |})
          ∨ (∃ e, dispatch ext inputs w = (inl e, w')
               ∧ download_indicator (exn_str e)
               ∧ r = error_response source_unavailable ∧ status r = 400)
          ∨ (∃ e, dispatch ext inputs w = (inl e, w')
               ∧ ¬ download_indicator (exn_str e)
               ∧ r = error_response (unexpected_error (exn_str e)) ∧ status r = 500))).
Proof.
  unfold post_transcribe.
  destruct (validate_and_process_inputs youtube_url audio_file) as [e|inputs] eqn:Hv.
  { left. exists e. simpl. repeat split. by apply (validate_rejects_422 _ _ _ Hv). }
  right. exists inputs. split; [done|].
  unfold transcribe_endpoint.
  destruct (dispatch ext inputs w) as [[e|transcript] w1].
  - destruct (PyStr.contains "HTTP Error 403" (exn_str e)
              || PyStr.contains "unable to download" (exn_str e)) eqn:Hc; simpl.
    + right. left. exists e. apply download_indicator_decide in Hc. done.
    + right. right. exists e. apply download_indicator_refute in Hc. done.
  - left. by exists transcript.
Qed.

End Requests.

(** The video URL alone selects the URL worker. *)
Lemma validated_inputs_dispatch_witness :
  let inputs := {| youtube_url := Some Scenario.video; audio_file := FieldAbsent |} in
  (∃ url, Some Scenario.video = Some url
     ∧ PyStr.truthy url = true
     ∧ inputs = {| youtube_url := Some url; audio_file := FieldAbsent |}
     ∧ dispatch Scenario.studio inputs = process_youtube_url Scenario.studio url)
  ∨ (∃ u, FieldAbsent = FieldUpload u
       ∧ bool_url (Some Scenario.video) = false
       ∧ inputs = {| youtube_url := Some Scenario.video; audio_file := FieldUpload u |}
       ∧ dispatch Scenario.studio inputs = process_audio_file Scenario.studio (FieldUpload u)).
Proof.
  intros inputs.
  apply (validated_inputs_dispatch Scenario.studio (Some Scenario.video) FieldAbsent inputs).
  reflexivity.
Defined.

(** ** The workers, end to end *)

Section Workers.

Context (ext : Collaborators).

Implicit Types (w : world) (url path : string) (u : UploadFile).

Lemma transcribe_audio_outcome file_path w :
  (transcribe_audio ext file_path w).1 =
    inference_outcome (whisper_transcribe ext file_path false).
Proof. apply transcribe_audio_result. Qed.

(** The answer to an accepted request, read off the worker's outcome. *)
Lemma request_of_dispatch youtube_url audio_file inputs w outcome w' :
  validate_and_process_inputs youtube_url audio_file = inr inputs →
  dispatch ext inputs w = (outcome, w') →
  post_transcribe ext youtube_url audio_file w =
    (match outcome with
     | inr transcript => {| status := 200; content := {[ "transcript" := transcript ]} |}
     | inl e =>
         if PyStr.contains "HTTP Error 403" (exn_str e)
            || PyStr.contains "unable to download" (exn_str e)
         then error_response source_unavailable
         else error_response (unexpected_error (exn_str e))
     end, w').
Proof.
  intros Hv Hd. rewrite (post_transcribe_accepted _ _ _ _ _ Hv).
  destruct outcome as [e|transcript].
  - rewrite (endpoint_on_exception _ _ _ _ _ Hd).
    by destruct (PyStr.contains "HTTP Error 403" (exn_str e)
                 || PyStr.contains "unable to download" (exn_str e)).
  - by rewrite (endpoint_on_success _ _ _ _ _ Hd).
Qed.

(** *** The file system under [rmtree] and the extractor *)

Lemma in_tree_root d : in_tree d d = true.
Proof. unfold in_tree. by rewrite bool_decide_eq_true_2. Qed.

Lemma lookup_rmtree_inside d (m : gmap string node) path :
  in_tree d path = true → rmtree d m !! path = None.
Proof.
  intros Hin. unfold rmtree. apply map_lookup_filter_None. right.
  intros x _ Hkeep. simpl in Hkeep. rewrite Hin in Hkeep. by apply Hkeep.
Qed.

Lemma lookup_rmtree_outside d (m : gmap string node) path :
  in_tree d path = false → rmtree d m !! path = m !! path.
Proof.
  intros Hout. unfold rmtree. destruct (m !! path) as [x|] eqn:Hx.
  - apply map_lookup_filter_Some. split; [done|]. simpl. rewrite Hout. by intros [].
  - apply map_lookup_filter_None. by left.
Qed.

Lemma lookup_write_files_other files (m : gmap string node) path :
  Forall (λ f : string * list Byte.byte, f.1 ≠ path) files →
  write_files files m !! path = m !! path.
Proof.
  revert m. induction files as [|f files IH]; intros m Hfiles; [done|].
  apply Forall_cons in Hfiles as [Hf Hfiles].
  change (write_files (f :: files) m) with (write_files files (<[f.1 := File f.2]> m)).
  rewrite IH by done. by apply lookup_insert_ne.
Qed.

Lemma extraction_fs url w :
  fs (extraction ext url w).2 =
    write_files (ydl_download ext (ydl_opts (tmp_name "" w)) [url]).1
                (<[tmp_name "" w := Dir]> (fs w)).
Proof.
  unfold extraction, mbind, M_bind, print, YoutubeDL_download. simpl.
  destruct (ydl_download ext _ _) as [files [e|]]; done.
Qed.

Lemma url_worker_fs url w :
  fs (process_youtube_url ext url w).2 =
    rmtree (tmp_name "" w) (fs (extraction ext url w).2).
Proof.
  rewrite process_youtube_url_run. simpl.
  destruct (extraction ext url w) as [[e|[]] w2]; [done|]. simpl.
  case_bool_decide; [|done].
  pose proof (transcribe_audio_fs ext (os_path_join (tmp_name "" w) "audio.mp3") w2) as Hfs.
  destruct (transcribe_audio ext _ w2) as [r w3]. simpl in *. by rewrite Hfs.
Qed.

(** *** The file worker, step by step *)

Lemma process_audio_file_run u bytes w :
  file_read u = inr bytes →
  disk_write ext (tmp_name ".tmp" w) bytes = None →
  process_audio_file ext (FieldUpload u) w =
    let name := tmp_name ".tmp" w in
    let w1 := set_fs (insert name (File bytes)) (temp_file_created w) in
    (inference_outcome (whisper_transcribe ext name false),
     set_fs (delete name) (transcribe_audio ext name w1).2).
Proof.
  intros Hread Hwrite.
  unfold process_audio_file, with_NamedTemporaryFile_nodelete, try_finally.
  unfold mbind, M_bind, file_write, os_unlink. rewrite Hread. simpl. rewrite Hwrite.
  unfold mret, M_ret. cbv beta iota. rewrite lookup_insert_eq.
  change ([] ++ bytes) with bytes. unfold temp_file_created.
  match goal with |- context [transcribe_audio ext ?p ?w1] =>
    pose proof (transcribe_audio_fs ext p w1) as Hfs;
    pose proof (transcribe_audio_outcome p w1) as Hout;
    destruct (transcribe_audio ext p w1) as [r w2]
  end.
  simpl in Hfs, Hout. rewrite Hfs, lookup_insert_eq. simpl. by rewrite Hout.
Qed.

(** *** File-backed requests *)

(** X4: a file-backed request whose upload can be read and written and
    whose audio the model recognises is answered 200 with exactly the
    model's text as transcript; the model was called once, on the
    temporary file, and that file is gone afterwards. *)
Theorem upload_request_succeeds youtube_url u bytes result text w :
  bool_url youtube_url = false →
  file_read u = inr bytes →
  disk_write ext (tmp_name ".tmp" w) bytes = None →
  whisper_transcribe ext (tmp_name ".tmp" w) false = inr result →
  result !! "text" = Some text →
  (post_transcribe ext youtube_url (FieldUpload u) w).1 =
    {| status := 200; content := {[ "transcript" := text ]} |}
  ∧ fs (post_transcribe ext youtube_url (FieldUpload u) w).2 =
      delete (tmp_name ".tmp" w) (fs w)
  ∧ calls (post_transcribe ext youtube_url (FieldUpload u) w).2 =
      calls w ++ [CallTranscribe (tmp_name ".tmp" w) false].
Proof.
  intros Hurl Hread Hwrite Hmodel Htext.
  pose proof (process_audio_file_run u bytes w Hread Hwrite) as Hrun.
  cbv zeta in Hrun. rewrite Hmodel in Hrun. simpl in Hrun. rewrite Htext in Hrun.
  rewrite (request_of_dispatch _ _ _ _ _ _ (validate_upload _ u Hurl)
             (eq_trans (f_equal (λ m, m w) (dispatch_upload ext _ _ Hurl)) Hrun)).
  simpl. split; [done|].
  rewrite transcribe_audio_fs, transcribe_audio_calls. simpl.
  by rewrite !delete_insert_eq.
Qed.

(** X5: once the upload has been written, the file worker hands on
    whatever inference produced, the text or the exception, and in either
    case the temporary file has been unlinked; if its name was free
    before the request, the file system is exactly as before. *)
Theorem file_worker_passes_outcome_and_cleans_up u bytes w :
  file_read u = inr bytes →
  disk_write ext (tmp_name ".tmp" w) bytes = None →
  (process_audio_file ext (FieldUpload u) w).1 =
    inference_outcome (whisper_transcribe ext (tmp_name ".tmp" w) false)
  ∧ fs (process_audio_file ext (FieldUpload u) w).2 = delete (tmp_name ".tmp" w) (fs w)
  ∧ (fs w !! tmp_name ".tmp" w = None →
       fs (process_audio_file ext (FieldUpload u) w).2 = fs w).
Proof.
  intros Hread Hwrite. rewrite (process_audio_file_run u bytes w Hread Hwrite). simpl.
  split; [done|].
  assert (delete (tmp_name ".tmp" w)
            (fs (transcribe_audio ext (tmp_name ".tmp" w)
                   (set_fs (insert (tmp_name ".tmp" w) (File bytes)) (temp_file_created w))).2)
          = delete (tmp_name ".tmp" w) (fs w)) as Hfs.
  { rewrite transcribe_audio_fs. simpl. by rewrite !delete_insert_eq. }
  split; [done|]. intros Hfree. rewrite Hfs. by apply delete_id.
Qed.

(** X6: the model runs on a temporary file that holds exactly the
    uploaded bytes, in a file system that otherwise is the one the request
    found. *)
Theorem inference_sees_uploaded_bytes u bytes w :
  file_read u = inr bytes →
  disk_write ext (tmp_name ".tmp" w) bytes = None →
  let name := tmp_name ".tmp" w in
  let w1 := set_fs (insert name (File bytes)) (temp_file_created w) in
  process_audio_file ext (FieldUpload u) w =
    try_finally (transcribe_audio ext name) (os_unlink name) w1
  ∧ fs w1 !! name = Some (File bytes)
  ∧ (∀ path, path ≠ name → fs w1 !! path = fs w !! path).
Proof.
  intros Hread Hwrite name w1. split; [|split].
  - unfold process_audio_file, with_NamedTemporaryFile_nodelete.
    unfold mbind, M_bind, file_write. rewrite Hread. simpl. rewrite Hwrite.
    unfold mret, M_ret. cbv beta iota. by rewrite lookup_insert_eq.
  - apply lookup_insert_eq.
  - intros path Hpath. subst w1. simpl. by rewrite !lookup_insert_ne.
Qed.

(** X7: when the model's answer has no ["text"] entry, inference raises
    [KeyError('text')]; a file-backed request is then answered 500 with
    ['text'] as the reported message, and its temporary file is still
    removed. *)
Theorem missing_text_entry_is_server_error youtube_url u bytes result w :
  bool_url youtube_url = false →
  file_read u = inr bytes →
  disk_write ext (tmp_name ".tmp" w) bytes = None →
  whisper_transcribe ext (tmp_name ".tmp" w) false = inr result →
  result !! "text" = None →
  (transcribe_audio ext (tmp_name ".tmp" w) w).1 = inl (KeyError "text")
  ∧ (post_transcribe ext youtube_url (FieldUpload u) w).1 =
      error_response (unexpected_error "'text'")
  ∧ status (post_transcribe ext youtube_url (FieldUpload u) w).1 = 500
  ∧ fs (post_transcribe ext youtube_url (FieldUpload u) w).2 =
      delete (tmp_name ".tmp" w) (fs w).
Proof.
  intros Hurl Hread Hwrite Hmodel Htext.
  split. { rewrite transcribe_audio_outcome, Hmodel. simpl. by rewrite Htext. }
  pose proof (process_audio_file_run u bytes w Hread Hwrite) as Hrun.
  cbv zeta in Hrun. rewrite Hmodel in Hrun. simpl in Hrun. rewrite Htext in Hrun.
  rewrite (request_of_dispatch _ _ _ _ _ _ (validate_upload _ u Hurl)
             (eq_trans (f_equal (λ m, m w) (dispatch_upload ext _ _ Hurl)) Hrun)).
  split; [done|]. split; [done|]. simpl.
  rewrite transcribe_audio_fs. simpl. by rewrite !delete_insert_eq.
Qed.

(** X8: a file-backed request never invokes the extractor, whatever
    happens while it is served: its only possible collaborator call is one
    model call, with [fp16] off, on its own temporary file. *)
Theorem upload_request_never_downloads youtube_url u w :
  bool_url youtube_url = false →
  calls (post_transcribe ext youtube_url (FieldUpload u) w).2 = calls w
  ∨ calls (post_transcribe ext youtube_url (FieldUpload u) w).2 =
      calls w ++ [CallTranscribe (tmp_name ".tmp" w) false].
Proof.
  intros Hurl.
  destruct (process_audio_file ext (FieldUpload u) w) as [outcome w'] eqn:Hrun.
  rewrite (request_of_dispatch _ _ _ _ _ _ (validate_upload _ u Hurl)
             (eq_trans (f_equal (λ m, m w) (dispatch_upload ext _ _ Hurl)) Hrun)).
  pose proof (file_worker_calls ext (FieldUpload u) w) as Hcalls.
  rewrite Hrun in Hcalls. done.
Qed.

(** *** URL-backed requests *)

(** X9: a URL-backed request whose extraction leaves [audio.mp3] in the
    temporary directory and whose audio the model recognises is answered
    200 with exactly the model's text; the extractor was called once and
    then the model once, on that file, and the directory tree is removed. *)
Theorem url_request_succeeds url audio_file w w2 result text :
  PyStr.truthy url = true →
  is_upload audio_file = false →
  extraction ext url w = (inr (), w2) →
  is_Some (fs w2 !! os_path_join (tmp_name "" w) "audio.mp3") →
  whisper_transcribe ext (os_path_join (tmp_name "" w) "audio.mp3") false = inr result →
  result !! "text" = Some text →
  (post_transcribe ext (Some url) audio_file w).1 =
    {| status := 200; content := {[ "transcript" := text ]} |}
  ∧ fs (post_transcribe ext (Some url) audio_file w).2 = rmtree (tmp_name "" w) (fs w2)
  ∧ calls (post_transcribe ext (Some url) audio_file w).2 =
      calls w ++ [ CallDownload (ydl_opts (tmp_name "" w)) [url];
                   CallTranscribe (os_path_join (tmp_name "" w) "audio.mp3") false ].
Proof.
  intros Hurl Hfile Hext Hfound Hmodel Htext.
  pose proof (extraction_calls ext url w) as Hcalls. rewrite Hext in Hcalls. simpl in Hcalls.
  pose proof (process_youtube_url_run ext url w) as Hrun. simpl in Hrun.
  rewrite Hext, (bool_decide_eq_true_2 _ Hfound) in Hrun.
  pose proof (transcribe_audio_outcome (os_path_join (tmp_name "" w) "audio.mp3") w2) as Hout.
  pose proof (transcribe_audio_fs ext (os_path_join (tmp_name "" w) "audio.mp3") w2) as Hfs.
  pose proof (transcribe_audio_calls ext (os_path_join (tmp_name "" w) "audio.mp3") w2) as Hc.
  destruct (transcribe_audio ext _ w2) as [r w3]. simpl in *.
  rewrite Hmodel in Hout. simpl in Hout. rewrite Htext in Hout. subst r.
  rewrite (request_of_dispatch _ _ _ _ _ _ (validate_url _ _ Hurl Hfile)
             (eq_trans (f_equal (λ m, m w) (dispatch_url ext _ _ Hurl)) Hrun)).
  simpl. split; [done|]. split; [by rewrite Hfs|].
  rewrite Hc, Hcalls. by rewrite <-app_assoc.
Qed.

(** X10: however the URL worker ends, by returning a transcript or by
    raising at any step, no path at or below its temporary directory is
    left on disk, and paths outside that directory are as the block left
    them. *)
Theorem url_worker_removes_its_directory url w path :
  (in_tree (tmp_name "" w) path = true →
     fs (process_youtube_url ext url w).2 !! path = None)
  ∧ (in_tree (tmp_name "" w) path = false →
       fs (process_youtube_url ext url w).2 !! path = fs (extraction ext url w).2 !! path).
Proof.
  rewrite url_worker_fs. split; intros Hin.
  - by apply lookup_rmtree_inside.
  - by apply lookup_rmtree_outside.
Qed.

(** X11: if nothing lay at or below the temporary directory's name before
    the request and the extractor writes only there, the URL worker leaves
    the file system exactly as it found it, whether it returns or raises. *)
Theorem url_worker_restores_file_system url w :
  (∀ path, in_tree (tmp_name "" w) path = true → fs w !! path = None) →
  Forall (λ f : string * list Byte.byte, in_tree (tmp_name "" w) f.1 = true)
         (ydl_download ext (ydl_opts (tmp_name "" w)) [url]).1 →
  fs (process_youtube_url ext url w).2 = fs w.
Proof.
  intros Hfresh Hfiles. apply map_eq. intros path.
  rewrite url_worker_fs.
  destruct (in_tree (tmp_name "" w) path) eqn:Hin.
  - rewrite lookup_rmtree_inside by done. symmetry. by apply Hfresh.
  - rewrite lookup_rmtree_outside by done. rewrite extraction_fs.
    rewrite lookup_write_files_other.
    + apply lookup_insert_ne. intros <-. by rewrite in_tree_root in Hin.
    + eapply Forall_impl; [exact Hfiles|]. intros f Hf <-. simpl in Hf. congruence.
Qed.

(** X12: when the extractor raises, the URL worker raises the same
    exception after removing its directory, and the model is never
    called: the download is the request's only collaborator call. *)
Theorem extractor_failure_skips_inference url w e w2 :
  extraction ext url w = (inl e, w2) →
  process_youtube_url ext url w = (inl e, set_fs (rmtree (tmp_name "" w)) w2)
  ∧ calls (process_youtube_url ext url w).2 =
      calls w ++ [CallDownload (ydl_opts (tmp_name "" w)) [url]].
Proof.
  intros Hext.
  pose proof (extraction_calls ext url w) as Hcalls. rewrite Hext in Hcalls.
  rewrite process_youtube_url_run. simpl. by rewrite Hext.
Qed.

(** X13: the URL worker calls the extractor first and the model
    afterwards, and the model exactly when the extraction returned
    normally and [audio.mp3] exists in the temporary directory; in that
    case the model's outcome is the worker's outcome. *)
Theorem url_worker_call_sequence url w :
  let audio_path := os_path_join (tmp_name "" w) "audio.mp3" in
  let ready :=
    match extraction ext url w with
    | (inr _, w2) => bool_decide (is_Some (fs w2 !! audio_path))
    | (inl _, _) => false
    end in
  calls (process_youtube_url ext url w).2 =
    calls w ++ CallDownload (ydl_opts (tmp_name "" w)) [url]
            :: (if ready then [CallTranscribe audio_path false] else [])
  ∧ (ready = true →
       (process_youtube_url ext url w).1 =
         inference_outcome (whisper_transcribe ext audio_path false)).
Proof.
  intros audio_path ready. subst audio_path ready.
  pose proof (extraction_calls ext url w) as Hcalls.
  rewrite process_youtube_url_run. simpl.
  destruct (extraction ext url w) as [[e|[]] w2]; simpl in *.
  - by rewrite Hcalls.
  - case_bool_decide; simpl.
    + pose proof (transcribe_audio_outcome (os_path_join (tmp_name "" w) "audio.mp3") w2) as Hout.
      pose proof (transcribe_audio_calls ext (os_path_join (tmp_name "" w) "audio.mp3") w2) as Hc.
      destruct (transcribe_audio ext _ w2) as [r w3]. simpl in *.
      split; [|done]. rewrite Hc, Hcalls. by rewrite <-app_assoc.
    + by rewrite Hcalls.
Qed.

End Workers.

(** An uploaded clip, recognised as " Hello world.". *)
Lemma upload_request_succeeds_witness :
  (post_transcribe Scenario.studio None (FieldUpload Scenario.clip) Scenario.boot).1 =
    {| status := 200; content := {[ "transcript" := VStr " Hello world." ]} |}
  ∧ fs (post_transcribe Scenario.studio None (FieldUpload Scenario.clip) Scenario.boot).2 =
      delete (tmp_name ".tmp" Scenario.boot) (fs Scenario.boot)
  ∧ calls (post_transcribe Scenario.studio None (FieldUpload Scenario.clip) Scenario.boot).2 =
      calls Scenario.boot ++ [CallTranscribe (tmp_name ".tmp" Scenario.boot) false].
Proof.
  apply (upload_request_succeeds Scenario.studio None Scenario.clip Scenario.mp3_bytes
           Scenario.hello (VStr " Hello world.") Scenario.boot).
  - reflexivity.
  - reflexivity.
  - reflexivity.
  - reflexivity.
  - vm_compute. reflexivity.
Defined.

(** The model runs out of memory: the exception is handed on, the
    temporary file is gone. *)
Lemma file_worker_passes_outcome_and_cleans_up_witness :
  (process_audio_file Scenario.out_of_memory (FieldUpload Scenario.clip) Scenario.boot).1 =
    inference_outcome
      (whisper_transcribe Scenario.out_of_memory (tmp_name ".tmp" Scenario.boot) false)
  ∧ fs (process_audio_file Scenario.out_of_memory (FieldUpload Scenario.clip) Scenario.boot).2 =
      delete (tmp_name ".tmp" Scenario.boot) (fs Scenario.boot)
  ∧ (fs Scenario.boot !! tmp_name ".tmp" Scenario.boot = None →
       fs (process_audio_file Scenario.out_of_memory (FieldUpload Scenario.clip)
             Scenario.boot).2 = fs Scenario.boot).
Proof.
  apply (file_worker_passes_outcome_and_cleans_up Scenario.out_of_memory Scenario.clip
           Scenario.mp3_bytes Scenario.boot).
  - reflexivity.
  - reflexivity.
Defined.

(** The clip's three bytes are in the temporary file when the model runs. *)
Lemma inference_sees_uploaded_bytes_witness :
  let name := tmp_name ".tmp" Scenario.boot in
  let w1 := set_fs (insert name (File Scenario.mp3_bytes)) (temp_file_created Scenario.boot) in
  process_audio_file Scenario.studio (FieldUpload Scenario.clip) Scenario.boot =
    try_finally (transcribe_audio Scenario.studio name) (os_unlink name) w1
  ∧ fs w1 !! name = Some (File Scenario.mp3_bytes)
  ∧ (∀ path, path ≠ name → fs w1 !! path = fs Scenario.boot !! path).
Proof.
  apply (inference_sees_uploaded_bytes Scenario.studio Scenario.clip Scenario.mp3_bytes
           Scenario.boot).
  - reflexivity.
  - reflexivity.
Defined.

(** A model answer that only names the language. *)
Lemma missing_text_entry_is_server_error_witness :
  (transcribe_audio Scenario.textless (tmp_name ".tmp" Scenario.boot) Scenario.boot).1 =
    inl (KeyError "text")
  ∧ (post_transcribe Scenario.textless None (FieldUpload Scenario.clip) Scenario.boot).1 =
      error_response (unexpected_error "'text'")
  ∧ status (post_transcribe Scenario.textless None (FieldUpload Scenario.clip)
              Scenario.boot).1 = 500
  ∧ fs (post_transcribe Scenario.textless None (FieldUpload Scenario.clip) Scenario.boot).2 =
      delete (tmp_name ".tmp" Scenario.boot) (fs Scenario.boot).
Proof.
  apply (missing_text_entry_is_server_error Scenario.textless None Scenario.clip
           Scenario.mp3_bytes {[ "language" := VStr "en" ]} Scenario.boot).
  - reflexivity.
  - reflexivity.
  - reflexivity.
  - reflexivity.
  - vm_compute. reflexivity.
Defined.

(** With the disk full the upload request makes no collaborator call. *)
Lemma upload_request_never_downloads_witness :
  calls (post_transcribe Scenario.disk_full None (FieldUpload Scenario.clip) Scenario.boot).2 =
    calls Scenario.boot
  ∨ calls (post_transcribe Scenario.disk_full None (FieldUpload Scenario.clip)
             Scenario.boot).2 =
      calls Scenario.boot ++ [CallTranscribe (tmp_name ".tmp" Scenario.boot) false].
Proof.
  apply (upload_request_never_downloads Scenario.disk_full None Scenario.clip Scenario.boot).
  reflexivity.
Defined.

(** The video is extracted to [/tmp/tmp0/audio.mp3] and recognised. *)
Lemma url_request_succeeds_witness :
  let w2 := (extraction Scenario.studio Scenario.video Scenario.boot).2 in
  (post_transcribe Scenario.studio (Some Scenario.video) FieldAbsent Scenario.boot).1 =
    {| status := 200; content := {[ "transcript" := VStr " Hello world." ]} |}
  ∧ fs (post_transcribe Scenario.studio (Some Scenario.video) FieldAbsent Scenario.boot).2 =
      rmtree (tmp_name "" Scenario.boot) (fs w2)
  ∧ calls (post_transcribe Scenario.studio (Some Scenario.video) FieldAbsent Scenario.boot).2 =
      calls Scenario.boot ++
        [ CallDownload (ydl_opts (tmp_name "" Scenario.boot)) [Scenario.video];
          CallTranscribe (os_path_join (tmp_name "" Scenario.boot) "audio.mp3") false ].
Proof.
  intros w2.
  apply (url_request_succeeds Scenario.studio Scenario.video FieldAbsent Scenario.boot w2
           Scenario.hello (VStr " Hello world.")).
  - reflexivity.
  - reflexivity.
  - vm_compute. reflexivity.
  - eexists. vm_compute. reflexivity.
  - reflexivity.
  - vm_compute. reflexivity.
Defined.

(** A freshly booted service serving the video: the disk is as before. *)
Lemma url_worker_restores_file_system_witness :
  fs (process_youtube_url Scenario.studio Scenario.video Scenario.boot).2 = fs Scenario.boot.
Proof.
  apply (url_worker_restores_file_system Scenario.studio Scenario.video Scenario.boot).
  - intros path _. reflexivity.
  - vm_compute. repeat constructor.
Defined.

(** The extractor is refused: its exception comes back, the model stays idle. *)
Lemma extractor_failure_skips_inference_witness :
  let e := Exn "DownloadError"
             "ERROR: unable to download video data: HTTP Error 403: Forbidden" in
  let w2 := (extraction Scenario.forbidden Scenario.video Scenario.boot).2 in
  process_youtube_url Scenario.forbidden Scenario.video Scenario.boot =
    (inl e, set_fs (rmtree (tmp_name "" Scenario.boot)) w2)
  ∧ calls (process_youtube_url Scenario.forbidden Scenario.video Scenario.boot).2 =
      calls Scenario.boot
        ++ [CallDownload (ydl_opts (tmp_name "" Scenario.boot)) [Scenario.video]].
Proof.
  intros e w2.
  apply (extractor_failure_skips_inference Scenario.forbidden Scenario.video Scenario.boot e w2).
  vm_compute. reflexivity.
Defined.
